(** * dapr-kit structured errors: construction and rendering

    A shallow embedding of [errors/errors.go] (package [errors]) and of the
    composite constructor of package [status], with the properties of the
    error value, of its two renderers and of the detail builders.

    Go maps are reference values: a [map[string]string] is a handle into a
    store of map contents, the nil map being the absent handle.  The store
    is explicit wherever a function reads or allocates a map.  A run-time
    panic (nil dereference, write to a nil map) is the [Panics] outcome of
    the [exec] monad. *)

From Stdlib Require Import ZArith NArith.
From stdpp Require Import gmap strings list fin_maps.

Local Open Scope string_scope.

(** ** Run-time outcomes *)

Inductive exec (A : Type) : Type :=
| Returns (a : A)
| Panics.
Arguments Returns {A} a.
Arguments Panics {A}.

#[global] Instance exec_ret : MRet exec := fun A a => Returns a.
#[global] Instance exec_bind : MBind exec := fun A B k c =>
  match c with
  | Returns a => k a
  | Panics => Panics
  end.
#[global] Instance exec_fmap : FMap exec := fun A B f c =>
  match c with
  | Returns a => Returns (f a)
  | Panics => Panics
  end.

(** ** The store of Go maps *)

Abbreviation loc := positive.
Abbreviation heap := (gmap positive (gmap string string)).

(** A value of type [map[string]string]: [None] is the nil map. *)
Definition mapref : Type := option loc.

(** Reading a map: the nil map reads as the empty map. *)
Definition contents (h : heap) (m : mapref) : gmap string string :=
  match m with
  | None => ∅
  | Some l => default ∅ (h !! l)
  end.

(** [m[k] = v]: the write goes to the store cell the handle names, and
    panics on the nil map. *)
Definition map_assign (h : heap) (m : mapref) (k v : string) : exec heap :=
  match m with
  | None => Panics
  | Some l => Returns (<[l := <[k := v]> (contents h m)]> h)
  end.

(** A map literal: a cell no other handle names. *)
Definition make_map (h : heap) (init : gmap string string) : heap * loc :=
  let l := fresh (dom h) in (<[l := init]> h, l).

(** [for k, v := range src { dst[k] = v }] with [dst] a live cell. *)
Definition range_assign (h : heap) (dst : loc) (src : mapref) : heap :=
  map_fold (fun k v acc => <[dst := <[k := v]> (contents acc (Some dst))]> acc)
           h (contents h src).

(** ** google.golang.org/grpc/codes *)

Module codes.
(** [type Code uint32] *)
Definition Code : Type := N.
Definition OK : Code := 0%N.
Definition Unknown : Code := 2%N.
Definition NotFound : Code := 5%N.
End codes.

(** ** net/http *)

Module http.
Definition StatusInternalServerError : Z := 500.
End http.

(** ** Detail messages *)

Module errdetails.
Record ErrorInfo : Type := mkErrorInfo {
  Reason : string;
  Domain : string;
  Metadata : mapref
}.

Record ResourceInfo : Type := mkResourceInfo {
  ResourceType : string;
  ResourceName : string;
  Owner : string;
  Description : string
}.
End errdetails.

Module customerrors.
(** The generated message of [proto/customerrors/v1]; the three fields
    are those the struct literal in [ConstructDaprKitErrorInfo] sets. *)
Record DaprKitErrorInfo : Type := mkDaprKitErrorInfo {
  Reason : string;
  Domain : string;
  Metadata : mapref
}.
End customerrors.

(** The values handed to [WithDetails] as [protoiface.MessageV1]. *)
Inductive Message : Type :=
| MsgErrorInfo (m : errdetails.ErrorInfo)
| MsgResourceInfo (m : errdetails.ResourceInfo)
| MsgDaprKitErrorInfo (m : customerrors.DaprKitErrorInfo).

(** ** google.golang.org/grpc/status *)

Module grpc.
(** [anypb.Any]: a type URL and the encoded message. *)
Record Any : Type := mkAny {
  TypeUrl : string;
  Value : list Byte.byte
}.

(** The status message a [status.Status] wraps. *)
Record Status : Type := mkStatus {
  Code : codes.Code;
  Message : string;
  Details : list Any
}.

(** [status.New(c, msg)]: a status with no details. *)
Definition New (c : codes.Code) (msg : string) : Status :=
  {| Code := c; Message := msg; Details := [] |}.

(** [Status.Proto()] on a non-nil status: a copy of the message. *)
Definition Proto (s : Status) : Status := s.
End grpc.

(** ** Interfaces *)

(** The [error] interface: a value observed through its [Error()] method. *)
Class ErrorIface (error : Type) : Type :=
  error_Error : error -> string.

(** The collaborators the two packages call, each of which may fail with
    an [error]:
    - [WithDetails]: [Status.WithDetails(details...)], which encodes each
      detail, reading the maps it refers to from the store;
    - [Marshal]: [protojson.Marshal];
    - [Sprintf]: [fmt.Sprintf(format)] with no operands, as [status.Newf]
      applies it to its message;
    - [Status_Err]: [Status.Err()], an [error] or nil. *)
Class StatusProtocol (error : Type) : Type := {
  WithDetails : heap -> grpc.Status -> list Message -> grpc.Status + error;
  Marshal : grpc.Status -> list Byte.byte + error;
  Sprintf : string -> string;
  Status_Err : grpc.Status -> option error
}.

(** ** Package [errors] *)

Module errors.

Definition Owner : string := "components-contrib".
Definition Domain : string := "dapr.io".
Definition unknown : string := "UNKNOWN_REASON".

(** gRPC to HTTP mapping: 500 Internal Server Error. *)
Definition unknownHTTPCode : Z := http.StatusInternalServerError.

Record ResourceInfo : Type := mkResourceInfo {
  Type_ : string;
  Name : string
}.

Section Errors.

Context {error : Type} `{!ErrorIface error} `{!StatusProtocol error}.

(** [err] is an interface value and [resourceInfo] a pointer: both may be
    nil.  [httpCode] is a Go [int]; no arithmetic is done on it. *)
Record Error : Type := mkError {
  err : option error;
  description : string;
  reason : string;
  httpCode : Z;
  grpcStatusCode : codes.Code;
  metadata : mapref;
  resourceInfo : option ResourceInfo
}.

(** An option is a closure that assigns fields of the [Error] it is handed. *)
Definition Option : Type := Error -> Error.

(** Field assignments [e.f = v]. *)
Definition set_description (v : string) (e : Error) : Error :=
  mkError (err e) v (reason e) (httpCode e) (grpcStatusCode e) (metadata e) (resourceInfo e).
Definition set_reason (v : string) (e : Error) : Error :=
  mkError (err e) (description e) v (httpCode e) (grpcStatusCode e) (metadata e) (resourceInfo e).
Definition set_httpCode (v : Z) (e : Error) : Error :=
  mkError (err e) (description e) (reason e) v (grpcStatusCode e) (metadata e) (resourceInfo e).
Definition set_grpcStatusCode (v : codes.Code) (e : Error) : Error :=
  mkError (err e) (description e) (reason e) (httpCode e) v (metadata e) (resourceInfo e).
Definition set_metadata (v : mapref) (e : Error) : Error :=
  mkError (err e) (description e) (reason e) (httpCode e) (grpcStatusCode e) v (resourceInfo e).
Definition set_resourceInfo (v : option ResourceInfo) (e : Error) : Error :=
  mkError (err e) (description e) (reason e) (httpCode e) (grpcStatusCode e) (metadata e) v.

(** [New]: nil for a nil cause; otherwise the defaults, then every option
    in order.  The metadata parameter [md] is not read. *)
Definition New (cause : option error) (md : mapref) (options : list Option)
  : option Error :=
  match cause with
  | None => None
  | Some _ =>
      let de := {| err := cause;
                   description := "";
                   reason := unknown;
                   httpCode := unknownHTTPCode;
                   grpcStatusCode := codes.Unknown;
                   metadata := None;
                   resourceInfo := None |} in
      Some (fold_left (fun de option => option de) options de)
  end.

(** [Error()], safe on a nil receiver and on a nil cause. *)
Definition Error_Error (e : option Error) : string :=
  match e with
  | Some e' =>
      match err e' with
      | Some c => error_Error c
      | None => ""
      end
  | None => ""
  end.

Definition Unwrap (e : Error) : option error := err e.

(** [Description()]: the fallback calls [Error()] on the cause, which
    panics when the cause is nil. *)
Definition Description (e : Error) : exec string :=
  if decide (description e ≠ "") then Returns (description e)
  else match err e with
       | Some c => Returns (error_Error c)
       | None => Panics
       end.

Definition WithErrorReason (r : string) (code : Z) (c : codes.Code) : Option :=
  fun e => set_httpCode code (set_grpcStatusCode c (set_reason r e)).

Definition WithResourceInfo (ri : option ResourceInfo) : Option :=
  fun e => set_resourceInfo ri e.

Definition WithDescription (d : string) : Option :=
  fun e => set_description d e.

Definition WithMetadata (md : mapref) : Option :=
  fun e => set_metadata md e.

Definition UnknownErrorReason : Option :=
  WithErrorReason unknown unknownHTTPCode codes.Unknown.

(** The record keeps the handle [md] it is given. *)
Definition newErrorInfo (r : string) (md : mapref) : errdetails.ErrorInfo :=
  {| errdetails.Domain := Domain;
     errdetails.Reason := r;
     errdetails.Metadata := md |}.

(** Dereferences [rid] and calls [Error()] on [cause]. *)
Definition newResourceInfo (rid : option ResourceInfo) (cause : option error)
  : exec errdetails.ResourceInfo :=
  match rid, cause with
  | Some ri, Some c =>
      Returns {| errdetails.ResourceType := Type_ ri;
                 errdetails.ResourceName := Name ri;
                 errdetails.Owner := Owner;
                 errdetails.Description := error_Error c |}
  | _, _ => Panics
  end.

(** [GRPCStatus()], in the store [h] the details are encoded from. *)
Definition GRPCStatus (h : heap) (e : Error) : exec grpc.Status :=
  let messages := [MsgErrorInfo (newErrorInfo (reason e) (metadata e))] in
  messages ←
    match resourceInfo e with
    | Some _ =>
        ri ← newResourceInfo (resourceInfo e) (err e);
        mret (messages ++ [MsgResourceInfo ri])%list
    | None => mret messages
    end;
  match WithDetails h (grpc.New (grpcStatusCode e) (description e)) messages with
  | inr stErr => mret (grpc.New (grpcStatusCode e) (description e))
  | inl ste => mret ste
  end.

(** [[]byte(s)] *)
Definition bytes (s : string) : list Byte.byte := String.list_byte_of_string s.

Definition ToHTTP (h : heap) (e : Error) : exec (Z * list Byte.byte) :=
  st ← GRPCStatus h e;
  match Marshal (grpc.Proto st) with
  | inr merr => mret (http.StatusInternalServerError, bytes (error_Error merr))
  | inl resp => mret (httpCode e, resp)
  end.

Definition HTTPCode (e : Error) : Z :=
  if (httpCode e =? 0)%Z then http.StatusInternalServerError else httpCode e.

Definition JSONErrorValue (h : heap) (e : Error) : exec (list Byte.byte) :=
  st ← GRPCStatus h e;
  match Marshal (grpc.Proto st) with
  | inr merr => mret (bytes (error_Error merr))
  | inl b => mret b
  end.

(** The options this package exports. *)
Inductive FieldSetter : Option -> Prop :=
| FieldSetter_reason r code c : FieldSetter (WithErrorReason r code c)
| FieldSetter_resourceInfo ri : FieldSetter (WithResourceInfo ri)
| FieldSetter_description d : FieldSetter (WithDescription d)
| FieldSetter_metadata md : FieldSetter (WithMetadata md).

(** The exported options other than [WithMetadata]. *)
Inductive NonMetadataSetter : Option -> Prop :=
| NonMetadataSetter_reason r code c : NonMetadataSetter (WithErrorReason r code c)
| NonMetadataSetter_resourceInfo ri : NonMetadataSetter (WithResourceInfo ri)
| NonMetadataSetter_description d : NonMetadataSetter (WithDescription d).

(** A constructed value: what [New] returns for a non-nil cause and
    exported options. *)
Definition Constructed (e : Error) : Prop :=
  exists (cause : error) (md : mapref) (options : list Option),
    Forall FieldSetter options /\ New (Some cause) md options = Some e.

End Errors.
End errors.

(** ** Package [status] *)

Module status.

Definition METHOD_NOT_FOUND : codes.Code := 8088%N.
Definition NO_CONNECTION : codes.Code := 8089%N.

(** The literal [map[string]string{"key": key}] is a new cell; the loop
    then writes every entry of [metadata] into it. *)
Definition ConstructErrorInfo (h : heap) (domain key reason : string)
    (metadata : mapref) : heap * errdetails.ErrorInfo :=
  let '(h1, l) := make_map h {[ "key" := key ]} in
  let h2 := range_assign h1 l metadata in
  (h2, {| errdetails.Domain := domain;
          errdetails.Reason := reason;
          errdetails.Metadata := Some l |}).

Definition ConstructDaprKitErrorInfo (h : heap) (domain key reason : string)
    (metadata : mapref) : heap * customerrors.DaprKitErrorInfo :=
  let '(h1, l) := make_map h {[ "key" := key ]} in
  let h2 := range_assign h1 l metadata in
  (h2, {| customerrors.Domain := domain;
          customerrors.Reason := reason;
          customerrors.Metadata := Some l |}).

Definition ConstructResourceInfo (owner resourceName description resourceType : string)
  : errdetails.ResourceInfo :=
  {| errdetails.ResourceType := resourceType;
     errdetails.ResourceName := resourceName;
     errdetails.Owner := owner;
     errdetails.Description := description |}.

Section Status.

Context {error : Type} `{!StatusProtocol error}.

(** [status.Newf(c, format)]: [status.New(c, fmt.Sprintf(format))]. *)
Definition Newf (c : codes.Code) (format : string) : grpc.Status :=
  grpc.New c (Sprintf format).

(** [ConstructError]: the final store and the returned [error] (nil when
    [None]). *)
Definition ConstructError (h : heap) (code : codes.Code) (err : option error)
    (key errDescription resourceType reason owner domain resourceName : string)
    (metadata : mapref) : heap * option error :=
  let '(h1, ei) := ConstructErrorInfo h domain key reason metadata in
  let ri := ConstructResourceInfo owner resourceName errDescription resourceType in
  let '(h2, kei) := ConstructDaprKitErrorInfo h1 domain key reason metadata in
  match WithDetails h2 (Newf code errDescription)
          [MsgErrorInfo ei; MsgResourceInfo ri; MsgDaprKitErrorInfo kei] with
  | inr stErr => (h2, err)
  | inl ste => (h2, Status_Err ste)
  end.

End Status.
End status.

(** ** Kinds of options *)

Section OptionKinds.

Context {error : Type}.

(** The exported options other than [WithErrorReason]. *)
Inductive NonReasonSetter : errors.Option (error := error) -> Prop :=
| NonReasonSetter_resourceInfo ri : NonReasonSetter (errors.WithResourceInfo ri)
| NonReasonSetter_description d : NonReasonSetter (errors.WithDescription d)
| NonReasonSetter_metadata md : NonReasonSetter (errors.WithMetadata md).

(** The exported options other than [WithDescription]. *)
Inductive NonDescriptionSetter : errors.Option (error := error) -> Prop :=
| NonDescriptionSetter_reason r code c :
    NonDescriptionSetter (errors.WithErrorReason r code c)
| NonDescriptionSetter_resourceInfo ri :
    NonDescriptionSetter (errors.WithResourceInfo ri)
| NonDescriptionSetter_metadata md :
    NonDescriptionSetter (errors.WithMetadata md).

End OptionKinds.

(** ** Test doubles

    A concrete [error] type and concrete collaborators, used to run the
    two packages on examples. *)

Module fake.

(** [errors.New(text)]: an error that is its text. *)
#[export] Instance string_error : ErrorIface string := fun s => s.

Definition type_url (m : Message) : string :=
  match m with
  | MsgErrorInfo _ => "type.googleapis.com/google.rpc.ErrorInfo"
  | MsgResourceInfo _ => "type.googleapis.com/google.rpc.ResourceInfo"
  | MsgDaprKitErrorInfo _ => "type.googleapis.com/customerrors.v1.DaprKitErrorInfo"
  end.

Definition render_entries (m : gmap string string) : string :=
  String.concat ";" ((fun kv => String.append (fst kv) (String.append "=" (snd kv))) <$> map_to_list m).

(** A stand-in for the wire encoding: the fields in order, the map read
    from the store at encoding time. *)
Definition render (h : heap) (m : Message) : string :=
  match m with
  | MsgErrorInfo ei =>
      String.concat "|" [errdetails.Reason ei; errdetails.Domain ei;
                         render_entries (contents h (errdetails.Metadata ei))]
  | MsgResourceInfo ri =>
      String.concat "|" [errdetails.ResourceType ri; errdetails.ResourceName ri;
                         errdetails.Owner ri; errdetails.Description ri]
  | MsgDaprKitErrorInfo kei =>
      String.concat "|" [customerrors.Reason kei; customerrors.Domain kei;
                         render_entries (contents h (customerrors.Metadata kei))]
  end.

Definition encode (h : heap) (m : Message) : grpc.Any :=
  {| grpc.TypeUrl := type_url m;
     grpc.Value := String.list_byte_of_string (render h m) |}.

(** Details cannot be attached to a status whose code is OK. *)
Definition with_details (h : heap) (s : grpc.Status) (details : list Message)
  : grpc.Status + string :=
  if decide (grpc.Code s = codes.OK)
  then inr "no error details for status with code OK"
  else inl {| grpc.Code := grpc.Code s;
              grpc.Message := grpc.Message s;
              grpc.Details := (grpc.Details s ++ (encode h <$> details))%list |}.

Definition is_ascii (s : string) : bool :=
  forallb (fun b => (Byte.to_N b <? 128)%N) (String.list_byte_of_string s).

(** The serializer rejects a message that is not plain ASCII (standing for
    invalid UTF-8) and otherwise emits the message and the detail URLs. *)
Definition marshal (s : grpc.Status) : list Byte.byte + string :=
  if is_ascii (grpc.Message s)
  then inl (String.list_byte_of_string
              (String.concat "," (grpc.Message s :: (grpc.TypeUrl <$> grpc.Details s))))
  else inr "proto: field contains invalid UTF-8".

Definition status_err (s : grpc.Status) : option string :=
  if decide (grpc.Code s = codes.OK) then None
  else Some (String.append "rpc error: " (grpc.Message s)).

#[export] Instance protocol : StatusProtocol string := {|
  WithDetails := with_details;
  Marshal := marshal;
  Sprintf := fun format => format;
  Status_Err := status_err
|}.

End fake.

(** ** Sample values *)

Module sample.

Definition store : heap := {[ 1%positive := {[ "a" := "1" ]} ]}.
Definition md : mapref := Some 1%positive.

Definition boom : string := "boom".

(** [New(errors.New("boom"), md)] *)
Definition plain : errors.Error (error := string) :=
  errors.mkError (Some boom) "" "UNKNOWN_REASON" 500 codes.Unknown None None.

(** [New(errors.New("boom"), md, WithErrorReason("NOT_FOUND", 404,
    codes.NotFound), WithResourceInfo(&ResourceInfo{"state", "redis"}),
    WithMetadata(md))] *)
Definition not_found_options : list (errors.Option (error := string)) :=
  [errors.WithErrorReason "NOT_FOUND" 404 codes.NotFound;
   errors.WithResourceInfo (Some (errors.mkResourceInfo "state" "redis"));
   errors.WithMetadata md].

Definition not_found : errors.Error (error := string) :=
  errors.mkError (Some boom) "" "NOT_FOUND" 404 codes.NotFound md
    (Some (errors.mkResourceInfo "state" "redis")).

(** [New(errors.New("boom"), nil, WithErrorReason("ZERO", 0, codes.Unknown))] *)
Definition zero_code : errors.Error (error := string) :=
  errors.mkError (Some boom) "" "ZERO" 0 codes.Unknown None None.

(** [New(errors.New("boom"), nil, WithErrorReason("OK", 200, codes.OK))] *)
Definition ok_code : errors.Error (error := string) :=
  errors.mkError (Some boom) "" "OK" 200 codes.OK None None.

(** [&Error{}]: the zero value, with no cause. *)
Definition zero_value : errors.Error (error := string) :=
  errors.mkError None "" "" 0 codes.OK None None.

(** Options that set everything but the reason triple. *)
Definition decorations : list (errors.Option (error := string)) :=
  [errors.WithDescription "state store is not configured";
   errors.WithResourceInfo (Some (errors.mkResourceInfo "state" "redis"));
   errors.WithMetadata md].

End sample.

(** * Properties *)

(** ** The store *)

Section StoreFacts.

Implicit Types (h : heap) (l : loc) (m : mapref).

Lemma contents_nil h : contents h None = ∅.
Proof. reflexivity. Qed.

Lemma contents_cell h l d : h !! l = Some d -> contents h (Some l) = d.
Proof. intros Hl. unfold contents. by rewrite Hl. Qed.

Lemma make_map_fresh h init : h !! (make_map h init).2 = None.
Proof.
  unfold make_map; simpl. apply not_elem_of_dom, is_fresh.
Qed.

Lemma make_map_contents h init :
  contents (make_map h init).1 (Some (make_map h init).2) = init.
Proof. unfold make_map; simpl. by rewrite lookup_insert_eq. Qed.

(** The loop leaves in [dst] the entries of [src] over those [dst] held. *)
Lemma range_assign_spec h dst d m :
  h !! dst = Some d ->
  range_assign h dst m = <[dst := contents h m ∪ d]> h.
Proof.
  intros Hdst. unfold range_assign.
  apply (map_fold_weak_ind (fun r s => r = <[dst := s ∪ d]> h)).
  - rewrite (left_id_L ∅ (∪)). symmetry. by apply insert_id.
  - intros k v s r Hk ->. simpl.
    rewrite lookup_insert_eq; simpl.
    rewrite insert_insert_eq. by rewrite insert_union_l.
Qed.

End StoreFacts.

(** ** Construction *)

Section ConstructionFacts.

Context {error : Type} `{!ErrorIface error} `{!StatusProtocol error}.

Implicit Types (e : errors.Error (error := error)) (o : errors.Option (error := error)).

(** No exported option touches the cause. *)
Lemma FieldSetter_err o e :
  errors.FieldSetter o -> errors.err (o e) = errors.err e.
Proof. intros []; reflexivity. Qed.

Lemma NonMetadataSetter_metadata o e :
  errors.NonMetadataSetter o -> errors.metadata (o e) = errors.metadata e.
Proof. intros []; reflexivity. Qed.

Lemma NonMetadataSetter_FieldSetter o :
  errors.NonMetadataSetter o -> errors.FieldSetter o.
Proof. intros []; constructor. Qed.

(** A field that every option of the list preserves is preserved by the
    loop over the list. *)
Lemma options_preserve {A} (field : errors.Error -> A) (P : errors.Option -> Prop)
    (options : list errors.Option) e :
  (forall o e', P o -> field (o e') = field e') ->
  Forall P options ->
  field (fold_left (fun de option => option de) options e) = field e.
Proof.
  intros Hstep Hall. revert e.
  induction Hall as [|o options Ho _ IH]; intros e; simpl.
  - reflexivity.
  - rewrite IH. by apply Hstep.
Qed.

Lemma Constructed_err e :
  errors.Constructed e -> exists cause, errors.err e = Some cause.
Proof.
  intros (cause & md & options & Hall & Hnew).
  exists cause. unfold errors.New in Hnew. injection Hnew as <-.
  rewrite (options_preserve errors.err errors.FieldSetter); [reflexivity| |done].
  intros o e' Ho. by apply FieldSetter_err.
Qed.

(** C3. A nil cause yields nil, not a zero-valued [Error], whatever the
    metadata and whatever the options (any closures at all). *)
Theorem New_nil_cause (md : mapref) (options : list errors.Option) :
  errors.New (error := error) None md options = None.
Proof. reflexivity. Qed.

(** C4. With a non-nil cause and no options the value has the reason
    "UNKNOWN_REASON", [HTTPCode()] 500, the gRPC code Unknown, and
    [Description()] returns the message of the cause. *)
Theorem New_defaults (cause : error) (md : mapref) :
  exists e,
    errors.New (Some cause) md [] = Some e /\
    errors.reason e = "UNKNOWN_REASON" /\
    errors.HTTPCode e = 500%Z /\
    errors.grpcStatusCode e = codes.Unknown /\
    errors.Description e = Returns (error_Error cause).
Proof.
  eexists. split; [reflexivity|]. repeat split.
Qed.

(** C1, as the code behaves: [New] never reads its metadata parameter, so
    with a non-nil cause and no [WithMetadata] among the options the
    metadata field of the result is nil, whatever mapping was passed. *)
Theorem New_metadata_nil (cause : error) (md : mapref) (options : list errors.Option) :
  Forall errors.NonMetadataSetter options ->
  exists e, errors.New (Some cause) md options = Some e /\ errors.metadata e = None.
Proof.
  intros Hall. eexists. split; [reflexivity|].
  rewrite (options_preserve errors.metadata errors.NonMetadataSetter); [reflexivity| |done].
  intros o e' Ho. by apply NonMetadataSetter_metadata.
Qed.

(** [HTTPCode()] replaces a stored 0 by 500 and returns anything else as
    stored. *)
Lemma HTTPCode_cases e :
  (errors.httpCode e = 0%Z /\ errors.HTTPCode e = 500%Z) \/
  (errors.httpCode e <> 0%Z /\ errors.HTTPCode e = errors.httpCode e).
Proof.
  unfold errors.HTTPCode. destruct (Z.eqb_spec (errors.httpCode e) 0); auto.
Qed.

(** C9. [HTTPCode()] never returns 0; constructing with an option that
    sets the code to 0 yields 500 from the accessor. *)
Theorem HTTPCode_never_zero :
  (forall e, errors.HTTPCode e <> 0%Z) /\
  (forall (cause : error) (md : mapref) (r : string) (c : codes.Code),
     exists e,
       errors.New (Some cause) md [errors.WithErrorReason r 0 c] = Some e /\
       errors.httpCode e = 0%Z /\
       errors.HTTPCode e = 500%Z).
Proof.
  split.
  - intros e. destruct (HTTPCode_cases e) as [[_ ->]|[Hne ->]]; [lia|done].
  - intros cause md r c. eexists. split; [reflexivity|]. split; reflexivity.
Qed.

End ConstructionFacts.

(** ** Rendering *)

Section RenderingFacts.

Context {error : Type} `{!ErrorIface error} `{!StatusProtocol error}.

Implicit Types (h : heap) (e : errors.Error (error := error)).

(** With a cause present, [GRPCStatus()] returns: the decorated status
    when the details attach, the bare one when they do not. *)
Lemma GRPCStatus_unfold h e cause :
  errors.err e = Some cause ->
  errors.GRPCStatus h e =
    Returns
      match WithDetails h (grpc.New (errors.grpcStatusCode e) (errors.description e))
              (MsgErrorInfo (errors.newErrorInfo (errors.reason e) (errors.metadata e)) ::
               match errors.resourceInfo e with
               | Some ri =>
                   [MsgResourceInfo
                      {| errdetails.ResourceType := errors.Type_ ri;
                         errdetails.ResourceName := errors.Name ri;
                         errdetails.Owner := errors.Owner;
                         errdetails.Description := error_Error cause |}]
               | None => []
               end) with
      | inl ste => ste
      | inr _ => grpc.New (errors.grpcStatusCode e) (errors.description e)
      end.
Proof.
  intros Herr. unfold errors.GRPCStatus, errors.newResourceInfo.
  rewrite Herr. destruct (errors.resourceInfo e) as [ri|]; simpl.
  - by destruct (WithDetails _ _ _).
  - by destruct (WithDetails _ _ _).
Qed.

Lemma GRPCStatus_returns h e :
  errors.Constructed e -> exists st, errors.GRPCStatus h e = Returns st.
Proof.
  intros [cause Hcause]%Constructed_err.
  rewrite (GRPCStatus_unfold h e cause Hcause). eauto.
Qed.

(** C5. For a constructed value the detail list is the ErrorInfo record
    followed, exactly when [resourceInfo] is present, by the ResourceInfo
    record; [GRPCStatus()] returns the status with the details attached
    and, when attaching fails, the bare status with the same code and
    description and no details.  It returns a status in both cases. *)
Theorem GRPCStatus_details_and_fallback h e :
  errors.Constructed e ->
  exists cause,
    errors.err e = Some cause /\
    let bare := grpc.New (errors.grpcStatusCode e) (errors.description e) in
    let messages :=
      MsgErrorInfo {| errdetails.Reason := errors.reason e;
                      errdetails.Domain := "dapr.io";
                      errdetails.Metadata := errors.metadata e |} ::
      match errors.resourceInfo e with
      | Some ri =>
          [MsgResourceInfo {| errdetails.ResourceType := errors.Type_ ri;
                              errdetails.ResourceName := errors.Name ri;
                              errdetails.Owner := "components-contrib";
                              errdetails.Description := error_Error cause |}]
      | None => []
      end in
    match WithDetails h bare messages with
    | inl ste => errors.GRPCStatus h e = Returns ste
    | inr _ =>
        errors.GRPCStatus h e = Returns bare /\
        grpc.Code bare = errors.grpcStatusCode e /\
        grpc.Message bare = errors.description e /\
        grpc.Details bare = []
    end.
Proof.
  intros [cause Hcause]%Constructed_err. exists cause. split; [done|].
  pose proof (GRPCStatus_unfold h e cause Hcause) as Hst.
  unfold errors.newErrorInfo in Hst. simpl.
  destruct (WithDetails _ _ _); [done|]. by repeat split.
Qed.

(** The two HTTP renderers differ only in the status code. *)
Lemma JSONErrorValue_ToHTTP h e :
  errors.JSONErrorValue h e = snd <$> errors.ToHTTP h e.
Proof.
  unfold errors.JSONErrorValue, errors.ToHTTP.
  destruct (errors.GRPCStatus h e) as [st|]; simpl; [|done].
  by destruct (Marshal _).
Qed.

(** Once the status is there, [ToHTTP()] returns, whatever the serializer
    does. *)
Lemma ToHTTP_unfold h e st :
  errors.GRPCStatus h e = Returns st ->
  errors.ToHTTP h e =
    Returns
      match Marshal (grpc.Proto st) with
      | inl resp => (errors.httpCode e, resp)
      | inr merr => (http.StatusInternalServerError, errors.bytes (error_Error merr))
      end.
Proof.
  intros Hst. unfold errors.ToHTTP. rewrite Hst; simpl.
  by destruct (Marshal _).
Qed.

(** C7. [ToHTTP()] on a constructed value always returns: the stored
    code and the JSON bytes when serialization succeeds, 500 and the
    bytes of the serializer's error text when it fails. *)
Theorem ToHTTP_never_fails h e :
  errors.Constructed e ->
  exists st,
    errors.GRPCStatus h e = Returns st /\
    match Marshal (grpc.Proto st) with
    | inl resp => errors.ToHTTP h e = Returns (errors.httpCode e, resp)
    | inr merr =>
        errors.ToHTTP h e =
          Returns (500%Z, String.list_byte_of_string (error_Error merr))
    end.
Proof.
  intros [st Hst]%(GRPCStatus_returns h). exists st. split; [done|].
  rewrite (ToHTTP_unfold h e st Hst).
  by destruct (Marshal _).
Qed.

(** C8. On a constructed value both renderers return, and the bytes
    [JSONErrorValue()] returns are the payload [ToHTTP()] returns, on the
    success path and on the serialization-failure path alike. *)
Theorem JSONErrorValue_same_payload h e :
  errors.Constructed e ->
  exists code payload,
    errors.ToHTTP h e = Returns (code, payload) /\
    errors.JSONErrorValue h e = Returns payload.
Proof.
  intros [st Hst]%(GRPCStatus_returns h).
  rewrite JSONErrorValue_ToHTTP, (ToHTTP_unfold h e st Hst).
  destruct (Marshal _); simpl; eauto.
Qed.

(** C10. When the stored code is 0 and serialization succeeds,
    [ToHTTP()] returns 0 as the status code, while [HTTPCode()] returns
    500: only the accessor substitutes. *)
Theorem ToHTTP_returns_stored_zero h e st resp :
  errors.Constructed e ->
  errors.httpCode e = 0%Z ->
  errors.GRPCStatus h e = Returns st ->
  Marshal (grpc.Proto st) = inl resp ->
  errors.ToHTTP h e = Returns (0%Z, resp) /\ errors.HTTPCode e = 500%Z.
Proof.
  intros _ Hzero Hst Hresp. split.
  - unfold errors.ToHTTP. rewrite Hst; simpl. by rewrite Hresp, Hzero.
  - unfold errors.HTTPCode. by rewrite Hzero.
Qed.

End RenderingFacts.

(** ** Detail builders *)

Section BuilderFacts.

Implicit Types (h : heap) (l : loc) (md : mapref).

(** C2, as the code behaves: [newErrorInfo] keeps the handle it is given
    and copies nothing, so a later write [md[k] = v] to a non-nil map
    shows through the record; the reason is the passed one and the domain is the constant
    "dapr.io" (there is no domain parameter). *)
Theorem newErrorInfo_keeps_handle (r : string) (md : mapref) :
  errdetails.Metadata (errors.newErrorInfo r md) = md /\
  errdetails.Reason (errors.newErrorInfo r md) = r /\
  errdetails.Domain (errors.newErrorInfo r md) = "dapr.io" /\
  forall h k v,
    match md with
    | None => map_assign h md k v = Panics
    | Some _ =>
        exists h',
          map_assign h md k v = Returns h' /\
          contents h' (errdetails.Metadata (errors.newErrorInfo r md)) =
            <[k := v]> (contents h md)
    end.
Proof.
  repeat split. intros h k v. destruct md as [l|]; [|reflexivity].
  eexists. split; [reflexivity|].
  simpl. by rewrite lookup_insert_eq.
Qed.

(** The literal-then-loop of the two [status] builders: a cell that was
    not in the store, holding the entries of [md] over the "key" entry. *)
Lemma build_metadata h key md :
  let l := fresh (dom h) in
  h !! l = None /\
  range_assign (make_map h {[ "key" := key ]}).1 l md =
    <[l := contents h md ∪ {[ "key" := key ]}]> h.
Proof.
  intros l. assert (Hl : h !! l = None) by apply (make_map_fresh h ∅).
  split; [done|]. unfold make_map; fold l; simpl.
  rewrite (range_assign_spec _ l {[ "key" := key ]}) by apply lookup_insert_eq.
  rewrite insert_insert_eq. f_equal.
  destruct md as [l'|]; [|done]. simpl.
  destruct (decide (l = l')) as [<-|Hne].
  - rewrite lookup_insert_eq, Hl; simpl.
    by rewrite (left_id_L ∅ (∪)), (idemp_L (∪)).
  - by rewrite lookup_insert_ne.
Qed.

Lemma ConstructErrorInfo_spec h domain key r md :
  status.ConstructErrorInfo h domain key r md =
    (<[fresh (dom h) := contents h md ∪ {[ "key" := key ]}]> h,
     {| errdetails.Domain := domain;
        errdetails.Reason := r;
        errdetails.Metadata := Some (fresh (dom h)) |}).
Proof.
  unfold status.ConstructErrorInfo.
  destruct (build_metadata h key md) as [_ Hb].
  unfold make_map in *; simpl in *. by rewrite Hb.
Qed.

Lemma ConstructDaprKitErrorInfo_spec h domain key r md :
  status.ConstructDaprKitErrorInfo h domain key r md =
    (<[fresh (dom h) := contents h md ∪ {[ "key" := key ]}]> h,
     {| customerrors.Domain := domain;
        customerrors.Reason := r;
        customerrors.Metadata := Some (fresh (dom h)) |}).
Proof.
  unfold status.ConstructDaprKitErrorInfo.
  destruct (build_metadata h key md) as [_ Hb].
  unfold make_map in *; simpl in *. by rewrite Hb.
Qed.

(** [ConstructErrorInfo], unlike [newErrorInfo], hands out a map of its
    own: a write to the caller's live map afterwards leaves the record's
    entries as they were. *)
Lemma ConstructErrorInfo_isolated h domain key r l k v :
  is_Some (h !! l) ->
  let '(h1, ei) := status.ConstructErrorInfo h domain key r (Some l) in
  exists h2,
    map_assign h1 (Some l) k v = Returns h2 /\
    contents h2 (errdetails.Metadata ei) = contents h1 (errdetails.Metadata ei) /\
    contents h1 (errdetails.Metadata ei) = contents h (Some l) ∪ {[ "key" := key ]}.
Proof.
  intros Hlive. rewrite ConstructErrorInfo_spec.
  eexists. split; [reflexivity|].
  assert (fresh (dom h) ≠ l) as Hne.
  { intros <-. destruct Hlive as [d Hd].
    pose proof (make_map_fresh h ∅) as Hf. simpl in Hf. congruence. }
  cbn [errdetails.Metadata contents].
  rewrite lookup_insert_ne by done. rewrite !lookup_insert_eq. done.
Qed.

End BuilderFacts.

(** ** The composite constructor *)

Section ConstructErrorFacts.

Context {error : Type} `{!StatusProtocol error}.

(** C6. [ConstructError] builds the three detail records, the two maps
    being new cells that hold the caller's entries over the "key" entry,
    and attaches them in the order ErrorInfo, ResourceInfo,
    DaprKitErrorInfo.  If attaching fails it returns the cause it was
    given, unchanged; otherwise it returns [Err()] of the decorated
    status. *)
Theorem ConstructError_failure_policy (h : heap) (code : codes.Code)
    (err : option error)
    (key errDescription resourceType reason owner domain resourceName : string)
    (metadata : mapref) :
  exists (l1 l2 : loc),
    l1 ≠ l2 /\ h !! l1 = None /\ h !! l2 = None /\
    let merged := contents h metadata ∪ {[ "key" := key ]} in
    let h2 := <[l2 := merged]> (<[l1 := merged]> h) in
    let details :=
      [MsgErrorInfo {| errdetails.Reason := reason;
                       errdetails.Domain := domain;
                       errdetails.Metadata := Some l1 |};
       MsgResourceInfo {| errdetails.ResourceType := resourceType;
                          errdetails.ResourceName := resourceName;
                          errdetails.Owner := owner;
                          errdetails.Description := errDescription |};
       MsgDaprKitErrorInfo {| customerrors.Reason := reason;
                              customerrors.Domain := domain;
                              customerrors.Metadata := Some l2 |}] in
    match WithDetails h2 (grpc.New code (Sprintf errDescription)) details with
    | inr _ =>
        status.ConstructError h code err key errDescription resourceType
          reason owner domain resourceName metadata = (h2, err)
    | inl ste =>
        status.ConstructError h code err key errDescription resourceType
          reason owner domain resourceName metadata = (h2, Status_Err ste)
    end.
Proof.
  set (merged := contents h metadata ∪ {[ "key" := key ]}).
  set (l1 := fresh (dom h)).
  set (h1 := <[l1 := merged]> h).
  set (l2 := fresh (dom h1)).
  assert (Hl1 : h !! l1 = None) by apply (make_map_fresh h ∅).
  assert (Hl2 : h1 !! l2 = None) by apply (make_map_fresh h1 ∅).
  assert (Hne : l1 ≠ l2).
  { intros Heq. rewrite <- Heq in Hl2. unfold h1 in Hl2.
    by rewrite lookup_insert_eq in Hl2. }
  assert (Hmerged : contents h1 metadata ∪ {[ "key" := key ]} = merged).
  { destruct metadata as [l|]; [|done]. unfold merged; simpl.
    destruct (decide (l1 = l)) as [<-|Hl].
    - unfold h1. rewrite lookup_insert_eq, Hl1; simpl. unfold merged; simpl.
      rewrite Hl1; simpl. by rewrite (left_id_L ∅ (∪)), (idemp_L (∪)).
    - unfold h1. by rewrite lookup_insert_ne. }
  exists l1, l2. split; [done|]. split; [done|]. split.
  { unfold h1 in Hl2. by rewrite lookup_insert_ne in Hl2. }
  simpl. unfold status.ConstructError, status.Newf, status.ConstructResourceInfo.
  rewrite ConstructErrorInfo_spec, ConstructDaprKitErrorInfo_spec.
  fold merged l1 h1 l2. rewrite Hmerged.
  by destruct (WithDetails _ _ _).
Qed.

End ConstructErrorFacts.

(** ** The two packages on the sample values *)

Section Samples.

Import fake.

Lemma plain_Constructed : errors.Constructed sample.plain.
Proof.
  exists sample.boom, sample.md, []. split; [constructor|reflexivity].
Defined.

Lemma not_found_Constructed : errors.Constructed sample.not_found.
Proof.
  exists sample.boom, sample.md, sample.not_found_options.
  split; [repeat constructor|reflexivity].
Defined.

Lemma zero_code_Constructed : errors.Constructed sample.zero_code.
Proof.
  exists sample.boom, None, [errors.WithErrorReason "ZERO" 0 codes.Unknown].
  split; [repeat constructor|reflexivity].
Defined.

Lemma ok_code_Constructed : errors.Constructed sample.ok_code.
Proof.
  exists sample.boom, None, [errors.WithErrorReason "OK" 200 codes.OK].
  split; [repeat constructor|reflexivity].
Defined.

(** [New(errors.New("boom"), md, WithDescription(...))] with [md] the
    non-nil map of the sample store. *)
Lemma New_metadata_nil_witness :
  Forall errors.NonMetadataSetter
    [errors.WithDescription (error := string) "state store is not configured"] /\
  exists e,
    errors.New (Some sample.boom) sample.md
      [errors.WithDescription "state store is not configured"] = Some e /\
    errors.metadata e = None.
Proof.
  split; [repeat constructor|].
  apply (New_metadata_nil sample.boom sample.md
           [errors.WithDescription "state store is not configured"]).
  repeat constructor.
Defined.

Lemma GRPCStatus_details_and_fallback_witness :
  errors.Constructed sample.not_found /\
  errors.GRPCStatus sample.store sample.not_found =
    Returns
      {| grpc.Code := codes.NotFound;
         grpc.Message := "";
         grpc.Details :=
           [fake.encode sample.store
              (MsgErrorInfo (errdetails.mkErrorInfo "NOT_FOUND" "dapr.io" sample.md));
            fake.encode sample.store
              (MsgResourceInfo
                 (errdetails.mkResourceInfo "state" "redis" "components-contrib" "boom"))] |}.
Proof.
  split; [exact not_found_Constructed|].
  destruct (GRPCStatus_details_and_fallback sample.store sample.not_found
              not_found_Constructed) as (cause & Hcause & Hst).
  injection Hcause as <-. exact Hst.
Defined.

Lemma ToHTTP_never_fails_witness :
  errors.Constructed sample.not_found /\
  exists st,
    errors.GRPCStatus sample.store sample.not_found = Returns st /\
    match Marshal (grpc.Proto st) with
    | inl resp =>
        errors.ToHTTP sample.store sample.not_found = Returns (404%Z, resp)
    | inr merr =>
        errors.ToHTTP sample.store sample.not_found =
          Returns (500%Z, String.list_byte_of_string (error_Error merr))
    end.
Proof.
  split; [exact not_found_Constructed|].
  exact (ToHTTP_never_fails sample.store sample.not_found not_found_Constructed).
Defined.

Lemma JSONErrorValue_same_payload_witness :
  errors.Constructed sample.not_found /\
  exists code payload,
    errors.ToHTTP sample.store sample.not_found = Returns (code, payload) /\
    errors.JSONErrorValue sample.store sample.not_found = Returns payload.
Proof.
  split; [exact not_found_Constructed|].
  exact (JSONErrorValue_same_payload sample.store sample.not_found
           not_found_Constructed).
Defined.

Lemma ToHTTP_returns_stored_zero_witness :
  errors.Constructed sample.zero_code /\
  errors.httpCode sample.zero_code = 0%Z /\
  errors.ToHTTP ∅ sample.zero_code =
    Returns (0%Z, String.list_byte_of_string ",type.googleapis.com/google.rpc.ErrorInfo") /\
  errors.HTTPCode sample.zero_code = 500%Z.
Proof.
  split; [exact zero_code_Constructed|]. split; [reflexivity|].
  eapply (ToHTTP_returns_stored_zero ∅ sample.zero_code);
    [exact zero_code_Constructed | reflexivity | reflexivity | reflexivity].
Defined.

(** The claim C2 makes of [newErrorInfo], that a write to the map after
    the record is built leaves the record's entries unchanged, fails: the
    record built over [md] reads "1" under "a" before [md["a"] = "2"] and
    "2" after it. *)
Lemma newErrorInfo_no_copy_counterexample :
  ~ (forall (h h' : heap) (r : string) (md : mapref) (k v : string),
       map_assign h md k v = Returns h' ->
       contents h' (errdetails.Metadata (errors.newErrorInfo r md)) =
         contents h (errdetails.Metadata (errors.newErrorInfo r md))).
Proof.
  intros Hcopy.
  specialize (Hcopy sample.store _ "R" sample.md "a" "2" eq_refl).
  apply (f_equal (fun m => m !! "a")) in Hcopy.
  vm_compute in Hcopy. discriminate Hcopy.
Qed.

(** [New(errors.New("boom"), md)] with [md] a non-nil map and no options:
    the metadata field is nil, not [md]. *)
Example New_drops_metadata_argument :
  exists e,
    errors.New (Some sample.boom) sample.md [] = Some e /\
    e = sample.plain /\
    errors.metadata e = None /\
    errors.metadata e <> sample.md.
Proof. exists sample.plain. by repeat split. Qed.

(** Attaching details to a status with code OK fails: [GRPCStatus()]
    falls back to the bare status and [ConstructError] to the cause. *)
Example ok_code_falls_back :
  errors.GRPCStatus ∅ sample.ok_code = Returns (grpc.New codes.OK "") /\
  (status.ConstructError sample.store codes.OK (Some sample.boom) "k" "desc"
     "state" "NOT_FOUND" "own" "dom" "redis" sample.md).2 = Some sample.boom /\
  (status.ConstructError sample.store codes.NotFound (Some sample.boom) "k" "desc"
     "state" "NOT_FOUND" "own" "dom" "redis" sample.md).2 = Some "rpc error: desc".
Proof. by vm_compute. Qed.

(** A description the serializer rejects: 500 and the error text. *)
Example ToHTTP_serializer_failure :
  errors.ToHTTP ∅
    (errors.WithDescription (String (Ascii.ascii_of_nat 200) "") sample.plain) =
    Returns (500%Z, String.list_byte_of_string "proto: field contains invalid UTF-8").
Proof. by vm_compute. Qed.

End Samples.

(** ** How options compose *)

Section OptionFacts.

Context {error : Type} `{!ErrorIface error} `{!StatusProtocol error}.

Implicit Types (e : errors.Error (error := error)) (o : errors.Option (error := error)).

Lemma NonReasonSetter_triple o e :
  NonReasonSetter o ->
  (errors.reason (o e), errors.httpCode (o e), errors.grpcStatusCode (o e)) =
  (errors.reason e, errors.httpCode e, errors.grpcStatusCode e).
Proof. intros []; reflexivity. Qed.

Lemma NonDescriptionSetter_description o e :
  NonDescriptionSetter o -> errors.description (o e) = errors.description e.
Proof. intros []; reflexivity. Qed.

Lemma NonDescriptionSetter_FieldSetter o :
  NonDescriptionSetter o -> errors.FieldSetter o.
Proof. intros []; constructor. Qed.

(** What [New] returns for a non-nil cause, as a loop over the options
    that come after a given prefix. *)
Lemma New_app (cause : error) (md : mapref) (before after : list errors.Option) :
  exists e0,
    errors.New (Some cause) md before = Some e0 /\
    errors.New (Some cause) md (before ++ after) =
      Some (fold_left (fun de option => option de) after e0).
Proof.
  eexists. split; [reflexivity|]. unfold errors.New. by rewrite fold_left_app.
Qed.

(** X1. The last [WithErrorReason] wins: after any options at all, and
    before options that are not [WithErrorReason], it fixes the reason,
    the stored HTTP code and the gRPC code of the result; [HTTPCode()]
    then returns that code, or 500 if it is 0. *)
Theorem New_last_reason_wins (cause : error) (md : mapref)
    (before after : list errors.Option) (r : string) (code : Z) (c : codes.Code) :
  Forall NonReasonSetter after ->
  exists e,
    errors.New (Some cause) md (before ++ errors.WithErrorReason r code c :: after)
      = Some e /\
    errors.reason e = r /\
    errors.httpCode e = code /\
    errors.grpcStatusCode e = c /\
    errors.HTTPCode e = (if (code =? 0)%Z then 500%Z else code).
Proof.
  intros Hafter.
  destruct (New_app cause md before (errors.WithErrorReason r code c :: after))
    as (e0 & _ & ->).
  eexists. split; [reflexivity|]. simpl.
  pose proof (options_preserve
    (fun e => (errors.reason e, errors.httpCode e, errors.grpcStatusCode e))
    NonReasonSetter after (errors.WithErrorReason r code c e0)
    (fun o e' Ho => NonReasonSetter_triple o e' Ho) Hafter) as Htriple.
  simpl in Htriple. injection Htriple as Hr Hcode Hc.
  unfold errors.HTTPCode. rewrite Hcode. by repeat split.
Qed.

(** X2. The metadata of the result is the map of the last [WithMetadata]
    option, whatever map was passed to [New] itself. *)
Theorem New_last_metadata_wins (cause : error) (md md' : mapref)
    (before after : list errors.Option) :
  Forall errors.NonMetadataSetter after ->
  exists e,
    errors.New (Some cause) md (before ++ errors.WithMetadata md' :: after) = Some e /\
    errors.metadata e = md'.
Proof.
  intros Hafter.
  destruct (New_app cause md before (errors.WithMetadata md' :: after))
    as (e0 & _ & ->).
  eexists. split; [reflexivity|]. simpl.
  rewrite (options_preserve errors.metadata errors.NonMetadataSetter); [done| |done].
  intros o e' Ho. by apply NonMetadataSetter_metadata.
Qed.

(** X3. [UnknownErrorReason] restates the defaults: placed after options
    none of which is [WithErrorReason], it changes nothing, whatever
    follows it. *)
Theorem UnknownErrorReason_restates_defaults (cause : option error) (md : mapref)
    (before after : list errors.Option) :
  Forall NonReasonSetter before ->
  errors.New cause md (before ++ errors.UnknownErrorReason :: after) =
  errors.New cause md (before ++ after).
Proof.
  intros Hbefore. destruct cause as [cause|]; [|reflexivity].
  unfold errors.New. rewrite !fold_left_app. cbn [fold_left].
  set (e := fold_left _ before _).
  assert (Htriple :
    (errors.reason e, errors.httpCode e, errors.grpcStatusCode e) =
    (errors.unknown, errors.unknownHTTPCode, codes.Unknown)).
  { unfold e.
    rewrite (options_preserve
      (fun e => (errors.reason e, errors.httpCode e, errors.grpcStatusCode e))
      NonReasonSetter); [done| |done].
    intros o e' Ho. by apply NonReasonSetter_triple. }
  clearbody e. injection Htriple as Hr Hcode Hc.
  assert (Hnoop : errors.UnknownErrorReason e = e).
  { destruct e; simpl in *; subst. reflexivity. }
  by rewrite Hnoop.
Qed.

(** X4. Passing an option last to [New] is applying it to what [New]
    returns without it; with a nil cause there is nothing to apply it to. *)
Theorem New_option_last (cause : option error) (md : mapref)
    (options : list errors.Option) o :
  errors.New cause md (options ++ [o]) = o <$> errors.New cause md options.
Proof.
  destruct cause as [cause|]; [|reflexivity].
  unfold errors.New. by rewrite fold_left_app.
Qed.

(** X5. No exported option changes the cause: [Error()] on what [New]
    returns is the message of the cause, the empty string for a nil
    cause (where [New] returns nil), and [Unwrap()] gives the cause back. *)
Theorem New_keeps_cause (cause : option error) (md : mapref)
    (options : list errors.Option) :
  Forall errors.FieldSetter options ->
  errors.Error_Error (errors.New cause md options) =
    from_option error_Error "" cause /\
  errors.Unwrap <$> errors.New cause md options = (fun c => Some c) <$> cause.
Proof.
  intros Hall. destruct cause as [cause|]; [|split; reflexivity].
  unfold errors.New, errors.Error_Error, errors.Unwrap. simpl.
  rewrite (options_preserve errors.err errors.FieldSetter); [done| |done].
  intros o e' Ho. by apply FieldSetter_err.
Qed.

(** X6. The last [WithDescription] decides [Description()]: it returns the
    description given, and falls back to the message of the cause when
    that description is empty. *)
Theorem Description_last_wins (cause : error) (md : mapref)
    (before after : list errors.Option) (d : string) :
  Forall errors.FieldSetter before ->
  Forall NonDescriptionSetter after ->
  exists e,
    errors.New (Some cause) md (before ++ errors.WithDescription d :: after) = Some e /\
    errors.Description e =
      Returns (if decide (d = "") then error_Error cause else d).
Proof.
  intros Hbefore Hafter.
  destruct (New_app cause md before (errors.WithDescription d :: after))
    as (e0 & He0 & ->).
  set (e := fold_left (fun de option => option de)
              (errors.WithDescription d :: after) e0).
  exists e. split; [reflexivity|]. unfold e; cbn [fold_left]; clear e.
  set (e := fold_left _ _ (errors.WithDescription d e0)).
  assert (Hd : errors.description e = d).
  { unfold e.
    rewrite (options_preserve errors.description NonDescriptionSetter); [done| |done].
    intros o e' Ho. by apply NonDescriptionSetter_description. }
  assert (Herr : errors.err e = Some cause).
  { unfold e.
    rewrite (options_preserve errors.err errors.FieldSetter); simpl.
    - unfold errors.New in He0. injection He0 as <-.
      rewrite (options_preserve errors.err errors.FieldSetter); [done| |done].
      intros o e' Ho. by apply FieldSetter_err.
    - intros o e' Ho. by apply FieldSetter_err.
    - eapply Forall_impl; [exact Hafter|]. apply NonDescriptionSetter_FieldSetter. }
  unfold errors.Description. rewrite Hd, Herr.
  destruct (decide (d = "")) as [->|Hne].
  - by rewrite decide_False by (intros Hx; by apply Hx).
  - by rewrite decide_True.
Qed.

End OptionFacts.

(** ** More on rendering *)

Section RenderingEdges.

Context {error : Type} `{!ErrorIface error} `{!StatusProtocol error}.

Implicit Types (h : heap) (e : errors.Error (error := error)).

(** X7. Without a [WithDescription] option the description field stays
    empty: [Description()] returns the message of the cause, while the
    status [GRPCStatus()] returns is built from an empty message: it is
    the bare status with that message, or what the details attached to. *)
Theorem no_description_empty_status_message h (cause : error) (md : mapref)
    (options : list errors.Option) :
  Forall NonDescriptionSetter options ->
  exists e st,
    errors.New (Some cause) md options = Some e /\
    errors.Description e = Returns (error_Error cause) /\
    errors.GRPCStatus h e = Returns st /\
    (st = grpc.New (errors.grpcStatusCode e) "" \/
     exists details,
       WithDetails h (grpc.New (errors.grpcStatusCode e) "") details = inl st).
Proof.
  intros Hall.
  set (e := fold_left (fun de option => option de) options
              (errors.mkError (Some cause) "" errors.unknown errors.unknownHTTPCode
                 codes.Unknown None None)).
  assert (Hd : errors.description e = "").
  { unfold e.
    rewrite (options_preserve errors.description NonDescriptionSetter); [done| |done].
    intros o e' Ho. by apply NonDescriptionSetter_description. }
  assert (Herr : errors.err e = Some cause).
  { unfold e.
    rewrite (options_preserve errors.err errors.FieldSetter); [done| |].
    - intros o e' Ho. by apply FieldSetter_err.
    - eapply Forall_impl; [exact Hall|]. apply NonDescriptionSetter_FieldSetter. }
  pose proof (GRPCStatus_unfold h e cause Herr) as Hst. rewrite Hd in Hst.
  exists e. eexists. split; [reflexivity|]. split; [|split; [exact Hst|]].
  - unfold errors.Description. rewrite Hd, Herr.
    by rewrite decide_False by (intros Hx; by apply Hx).
  - destruct (WithDetails _ _ _) as [ste|] eqn:Hwd; [right|left]; eauto.
Qed.

(** X8. On a value whose cause is nil (the zero value, with or without
    options applied): [Error()] returns the empty string; [Description()]
    panics exactly when the description is empty; the three renderers
    panic exactly when a resource info is set. *)
Theorem nil_cause_methods h e :
  errors.err e = None ->
  errors.Error_Error (Some e) = "" /\
  (errors.Description e = Panics <-> errors.description e = "") /\
  (errors.GRPCStatus h e = Panics <-> errors.resourceInfo e <> None) /\
  (errors.ToHTTP h e = Panics <-> errors.resourceInfo e <> None) /\
  (errors.JSONErrorValue h e = Panics <-> errors.resourceInfo e <> None).
Proof.
  intros Herr.
  assert (Hst : errors.GRPCStatus h e = Panics <-> errors.resourceInfo e <> None).
  { unfold errors.GRPCStatus, errors.newResourceInfo. rewrite Herr.
    destruct (errors.resourceInfo e) as [ri|]; simpl.
    - split; [done|reflexivity].
    - destruct (WithDetails _ _ _); split; done. }
  assert (Hhttp : errors.ToHTTP h e = Panics <-> errors.resourceInfo e <> None).
  { rewrite <- Hst. unfold errors.ToHTTP.
    destruct (errors.GRPCStatus h e) as [st|]; simpl; [|done].
    destruct (Marshal _); split; done. }
  repeat split; try (apply Hst || apply Hhttp).
  - unfold errors.Error_Error. by rewrite Herr.
  - unfold errors.Description. rewrite Herr.
    destruct (decide (errors.description e ≠ "")) as [Hne|Heq]; [done|].
    intros _. by destruct (decide (errors.description e = "")).
  - unfold errors.Description. rewrite Herr. intros ->.
    by rewrite decide_False by (intros Hx; by apply Hx).
  - rewrite JSONErrorValue_ToHTTP. intros Hx. apply Hhttp.
    by destruct (errors.ToHTTP h e).
  - rewrite JSONErrorValue_ToHTTP. intros Hx. apply Hhttp in Hx. by rewrite Hx.
Qed.

(** X9. When the status serializes, the code [ToHTTP()] returns is the
    one [HTTPCode()] returns exactly when the stored code is not 0. *)
Theorem ToHTTP_code_matches_HTTPCode h e st resp :
  errors.GRPCStatus h e = Returns st ->
  Marshal (grpc.Proto st) = inl resp ->
  (errors.ToHTTP h e = Returns (errors.HTTPCode e, resp) <->
   errors.httpCode e <> 0%Z).
Proof.
  intros Hst Hresp. rewrite (ToHTTP_unfold h e st Hst), Hresp.
  destruct (HTTPCode_cases e) as [[Hz Hc]|[Hnz Hc]]; rewrite Hc.
  - rewrite Hz. split; [intros [=]|done].
  - split; [done|reflexivity].
Qed.

(** X10. The HTTP code never reaches the status or the body: values that
    differ only in the code given to [WithErrorReason] render to the same
    gRPC status and the same bytes. *)
Theorem rendering_ignores_httpCode h e (r : string) (code1 code2 : Z)
    (c : codes.Code) :
  errors.GRPCStatus h (errors.WithErrorReason r code1 c e) =
    errors.GRPCStatus h (errors.WithErrorReason r code2 c e) /\
  errors.JSONErrorValue h (errors.WithErrorReason r code1 c e) =
    errors.JSONErrorValue h (errors.WithErrorReason r code2 c e) /\
  snd <$> errors.ToHTTP h (errors.WithErrorReason r code1 c e) =
    snd <$> errors.ToHTTP h (errors.WithErrorReason r code2 c e).
Proof.
  assert (Hst : errors.GRPCStatus h (errors.WithErrorReason r code1 c e) =
                errors.GRPCStatus h (errors.WithErrorReason r code2 c e))
    by reflexivity.
  split; [done|]. rewrite <- !JSONErrorValue_ToHTTP.
  split; unfold errors.JSONErrorValue; by rewrite Hst.
Qed.

End RenderingEdges.

(** ** More on the detail builders *)

Section BuilderEdges.

Implicit Types (h : heap) (l : loc) (md : mapref).

(** X11. The record [ConstructErrorInfo] builds carries the domain and
    the reason given, and its map holds every entry of the caller's map
    and, under "key", the caller's own "key" entry if there is one and
    the key argument otherwise; it has no other entry. *)
Theorem ConstructErrorInfo_entries h (domain key r : string) md :
  let res := status.ConstructErrorInfo h domain key r md in
  errdetails.Domain res.2 = domain /\
  errdetails.Reason res.2 = r /\
  forall k,
    contents res.1 (errdetails.Metadata res.2) !! k =
      match contents h md !! k with
      | Some v => Some v
      | None => if decide (k = "key") then Some key else None
      end.
Proof.
  rewrite ConstructErrorInfo_spec. simpl. split; [done|]. split; [done|].
  intros k. rewrite lookup_insert_eq; simpl. rewrite lookup_union.
  destruct (contents h md !! k) as [v|]; simpl.
  - by destruct ({[ "key" := key ]} !! k).
  - destruct (decide (k = "key")) as [->|Hne].
    + by rewrite lookup_singleton_eq.
    + by rewrite lookup_singleton_ne.
Qed.


(** X14. [ConstructDaprKitErrorInfo] does to the store what
    [ConstructErrorInfo] does, and its record has the same domain, reason
    and map. *)
Theorem ConstructDaprKitErrorInfo_agrees h (domain key r : string) md :
  let ei := status.ConstructErrorInfo h domain key r md in
  let kei := status.ConstructDaprKitErrorInfo h domain key r md in
  kei.1 = ei.1 /\
  customerrors.Domain kei.2 = errdetails.Domain ei.2 /\
  customerrors.Reason kei.2 = errdetails.Reason ei.2 /\
  customerrors.Metadata kei.2 = errdetails.Metadata ei.2.
Proof.
  rewrite ConstructErrorInfo_spec, ConstructDaprKitErrorInfo_spec. by repeat split.
Qed.

End BuilderEdges.

Section BuilderAliasing.

Implicit Types (h : heap) (l : loc).

(** X12. The map of the record [ConstructErrorInfo] builds shares nothing
    with the caller's live map: a write to the caller's map afterwards
    leaves the record's entries as they were, and a write through the
    record leaves the caller's entries as they were. *)
Theorem ConstructErrorInfo_no_aliasing h (domain key r : string) l :
  is_Some (h !! l) ->
  let res := status.ConstructErrorInfo h domain key r (Some l) in
  (forall k v,
     exists h2,
       map_assign res.1 (Some l) k v = Returns h2 /\
       contents h2 (errdetails.Metadata res.2) =
         contents res.1 (errdetails.Metadata res.2)) /\
  (forall k v,
     exists h2,
       map_assign res.1 (errdetails.Metadata res.2) k v = Returns h2 /\
       contents h2 (Some l) = contents h (Some l)).
Proof.
  intros Hlive. rewrite ConstructErrorInfo_spec.
  assert (fresh (dom h) ≠ l) as Hne.
  { intros <-. destruct Hlive as [d Hd].
    pose proof (make_map_fresh h ∅) as Hf. simpl in Hf. congruence. }
  cbn [fst snd errdetails.Metadata]. split; intros k v.
  - eexists. split; [reflexivity|]. cbn [contents].
    rewrite lookup_insert_ne by done. by rewrite !lookup_insert_eq.
  - eexists. split; [reflexivity|]. cbn [contents].
    by rewrite !lookup_insert_ne by done.
Qed.

End BuilderAliasing.

(** ** The further properties on the sample values *)

Section MoreSamples.

Import fake.

Lemma New_last_reason_wins_witness :
  Forall NonReasonSetter sample.decorations /\
  exists e,
    errors.New (Some sample.boom) sample.md
      ([errors.WithErrorReason "FIRST" 0 codes.Unknown] ++
       errors.WithErrorReason "NOT_FOUND" 404 codes.NotFound :: sample.decorations)
      = Some e /\
    errors.reason e = "NOT_FOUND" /\
    errors.httpCode e = 404%Z /\
    errors.grpcStatusCode e = codes.NotFound /\
    errors.HTTPCode e = 404%Z.
Proof.
  split; [repeat constructor|].
  apply (New_last_reason_wins sample.boom sample.md
           [errors.WithErrorReason "FIRST" 0 codes.Unknown] sample.decorations
           "NOT_FOUND" 404 codes.NotFound).
  repeat constructor.
Defined.

Lemma New_last_metadata_wins_witness :
  Forall errors.NonMetadataSetter
    [errors.WithDescription (error := string) "state store is not configured"] /\
  exists e,
    errors.New (Some sample.boom) None
      ([errors.WithMetadata None] ++
       errors.WithMetadata sample.md ::
       [errors.WithDescription "state store is not configured"]) = Some e /\
    errors.metadata e = sample.md.
Proof.
  split; [repeat constructor|].
  apply (New_last_metadata_wins sample.boom None sample.md
           [errors.WithMetadata None]
           [errors.WithDescription "state store is not configured"]).
  repeat constructor.
Defined.

Lemma UnknownErrorReason_restates_defaults_witness :
  Forall NonReasonSetter sample.decorations /\
  errors.New (Some sample.boom) sample.md
    (sample.decorations ++ errors.UnknownErrorReason ::
     [errors.WithErrorReason "NOT_FOUND" 404 codes.NotFound]) =
  errors.New (Some sample.boom) sample.md
    (sample.decorations ++ [errors.WithErrorReason "NOT_FOUND" 404 codes.NotFound]).
Proof.
  split; [repeat constructor|].
  apply (UnknownErrorReason_restates_defaults (Some sample.boom) sample.md
           sample.decorations [errors.WithErrorReason "NOT_FOUND" 404 codes.NotFound]).
  repeat constructor.
Defined.

Lemma New_keeps_cause_witness :
  Forall errors.FieldSetter sample.not_found_options /\
  errors.Error_Error (errors.New (Some sample.boom) sample.md sample.not_found_options)
    = "boom" /\
  errors.Unwrap <$> errors.New (Some sample.boom) sample.md sample.not_found_options
    = Some (Some sample.boom).
Proof.
  assert (Hall : Forall errors.FieldSetter sample.not_found_options)
    by repeat constructor.
  split; [exact Hall|].
  exact (New_keeps_cause (Some sample.boom) sample.md sample.not_found_options Hall).
Defined.

Lemma Description_last_wins_witness :
  Forall errors.FieldSetter
    [errors.WithDescription (error := string) "state store is not configured"] /\
  Forall NonDescriptionSetter [errors.WithMetadata (error := string) sample.md] /\
  exists e,
    errors.New (Some sample.boom) sample.md
      ([errors.WithDescription "state store is not configured"] ++
       errors.WithDescription "" :: [errors.WithMetadata sample.md]) = Some e /\
    errors.Description e = Returns "boom".
Proof.
  assert (Hbefore : Forall errors.FieldSetter
            [errors.WithDescription (error := string) "state store is not configured"])
    by repeat constructor.
  assert (Hafter : Forall NonDescriptionSetter
            [errors.WithMetadata (error := string) sample.md])
    by repeat constructor.
  split; [exact Hbefore|]. split; [exact Hafter|].
  exact (Description_last_wins sample.boom sample.md
           [errors.WithDescription "state store is not configured"]
           [errors.WithMetadata sample.md] "" Hbefore Hafter).
Defined.

Lemma no_description_empty_status_message_witness :
  Forall NonDescriptionSetter sample.not_found_options /\
  exists e st,
    errors.New (Some sample.boom) sample.md sample.not_found_options = Some e /\
    errors.Description e = Returns "boom" /\
    errors.GRPCStatus sample.store e = Returns st /\
    (st = grpc.New (errors.grpcStatusCode e) "" \/
     exists details,
       WithDetails sample.store (grpc.New (errors.grpcStatusCode e) "") details
         = inl st).
Proof.
  assert (Hall : Forall NonDescriptionSetter sample.not_found_options)
    by repeat constructor.
  split; [exact Hall|].
  exact (no_description_empty_status_message sample.store sample.boom sample.md
           sample.not_found_options Hall).
Defined.

Lemma nil_cause_methods_witness :
  errors.err sample.zero_value = None /\
  errors.Error_Error (Some sample.zero_value) = "" /\
  (errors.Description sample.zero_value = Panics <->
   errors.description sample.zero_value = "") /\
  (errors.GRPCStatus ∅ sample.zero_value = Panics <->
   errors.resourceInfo sample.zero_value <> None) /\
  (errors.ToHTTP ∅ sample.zero_value = Panics <->
   errors.resourceInfo sample.zero_value <> None) /\
  (errors.JSONErrorValue ∅ sample.zero_value = Panics <->
   errors.resourceInfo sample.zero_value <> None).
Proof.
  split; [reflexivity|].
  apply (nil_cause_methods ∅ sample.zero_value). reflexivity.
Defined.

Lemma ToHTTP_code_matches_HTTPCode_witness :
  exists st resp,
    errors.GRPCStatus sample.store sample.not_found = Returns st /\
    Marshal (grpc.Proto st) = inl resp /\
    (errors.ToHTTP sample.store sample.not_found =
       Returns (errors.HTTPCode sample.not_found, resp) <->
     errors.httpCode sample.not_found <> 0%Z).
Proof.
  eexists. eexists. split; [reflexivity|]. split; [reflexivity|].
  eapply (ToHTTP_code_matches_HTTPCode sample.store sample.not_found); reflexivity.
Defined.

Lemma ConstructErrorInfo_no_aliasing_witness :
  is_Some (sample.store !! 1%positive) /\
  let res := status.ConstructErrorInfo sample.store "dapr.io" "k" "NOT_FOUND"
               (Some 1%positive) in
  (forall k v,
     exists h2,
       map_assign res.1 (Some 1%positive) k v = Returns h2 /\
       contents h2 (errdetails.Metadata res.2) =
         contents res.1 (errdetails.Metadata res.2)) /\
  (forall k v,
     exists h2,
       map_assign res.1 (errdetails.Metadata res.2) k v = Returns h2 /\
       contents h2 (Some 1%positive) = contents sample.store (Some 1%positive)).
Proof.
  assert (Hlive : is_Some (sample.store !! 1%positive)) by (eexists; reflexivity).
  split; [exact Hlive|].
  exact (ConstructErrorInfo_no_aliasing sample.store "dapr.io" "k" "NOT_FOUND"
           1%positive Hlive).
Defined.

End MoreSamples.
